(** * PyLog: a shallow embedding of [logger.py] and its properties

    The Python class [Logger] is embedded as a record together with a small
    state-and-exception monad over the interpreter state the class touches:
    the instance itself, the text written to standard output, and the files
    of the working directory (a finite map from paths to text contents).

    Conventions of the embedding:
    - a Python [str] is a [string]; every character the code inspects (the
      escape pattern, the upper-casing of the three labels, decimal digits)
      is 7-bit ASCII, so other characters are opaque to it;
    - the attribute [log_level] is untyped in Python, so it holds a [pyobj];
    - [datetime.now()] is an input of the constructor;
    - opening, writing and removing files act on the finite map; failures of
      the operating system (permissions, full disk) are outside the model,
      while [os.remove] of a missing path raises as it does in Python. *)

From Stdlib Require Import String Ascii List Arith ZArith Lia.
From Stdlib Require Import DecimalString DecimalNat DecimalFacts.
From stdpp Require Import base strings gmap.

Local Set Warnings "-abstract-large-number".

Local Open Scope string_scope.

(** ** Strings *)

Module Str.

(** [c in s] for a single character [c]. *)
Fixpoint mem (c : ascii) (s : string) : bool :=
  match s with
  | "" => false
  | String a s' => Ascii.eqb a c || mem c s'
  end.

Fixpoint all (p : ascii -> bool) (s : string) : bool :=
  match s with
  | "" => true
  | String a s' => p a && all p s'
  end.

Fixpoint map (f : ascii -> ascii) (s : string) : string :=
  match s with
  | "" => ""
  | String a s' => String (f a) (map f s')
  end.

End Str.

(** The escape character, written ['\033'] and ['\x1B'] in the source. *)
Definition ESC : ascii := "027"%char.

(** The line feed, written ['\n'] in the source and added by [print]. *)
Definition nl : string := String "010" "".

(** ** Built-in conversions *)

(** [str(n)] for a non-negative [int]: the decimal numeral without padding. *)
Definition py_str (n : nat) : string :=
  NilEmpty.string_of_uint (Nat.to_uint n).

(** [int(s)] on a run of decimal digits; anything else is a [ValueError],
    rendered here as [None]. *)
Definition py_int (s : string) : option nat :=
  option_map Nat.of_uint (NilZero.uint_of_string s).

(** [str.upper] on ASCII letters. *)
Definition upper_ascii (c : ascii) : ascii :=
  let n := nat_of_ascii c in
  if ((97 <=? n) && (n <=? 122))%nat then ascii_of_nat (n - 32) else c.

Definition upper (s : string) : string := Str.map upper_ascii s.

(** ** Regular expressions as [re] runs them

    A backtracking matcher in continuation-passing style: alternatives are
    tried left to right, repetition is greedy, and the continuation [k]
    receives the rest of the input after the part matched so far. *)

Inductive regex : Type :=
| Lit (c : ascii)
| Class (ranges : list (ascii * ascii))
| Cat (r1 r2 : regex)
| Or (r1 r2 : regex)
| Star (r : regex).

Definition in_range (c : ascii) (lohi : ascii * ascii) : bool :=
  ((nat_of_ascii (fst lohi) <=? nat_of_ascii c) &&
   (nat_of_ascii c <=? nat_of_ascii (snd lohi)))%nat.

Definition in_class (ranges : list (ascii * ascii)) (c : ascii) : bool :=
  existsb (in_range c) ranges.

Definition star_loop (body : string -> (string -> option string) -> option string)
    (k : string -> option string) : nat -> string -> option string :=
  fix loop (n : nat) (s : string) {struct n} : option string :=
    match n with
    | O => k s
    | S n' =>
        match body s (fun s1 =>
                if (String.length s1 <? String.length s)%nat then loop n' s1 else None) with
        | Some rest => Some rest
        | None => k s
        end
    end.

Fixpoint rmatch (r : regex) (s : string) (k : string -> option string)
    {struct r} : option string :=
  match r with
  | Lit c =>
      match s with
      | String a s' => if Ascii.eqb a c then k s' else None
      | "" => None
      end
  | Class ranges =>
      match s with
      | String a s' => if in_class ranges a then k s' else None
      | "" => None
      end
  | Cat r1 r2 => rmatch r1 s (fun s1 => rmatch r2 s1 k)
  | Or r1 r2 =>
      match rmatch r1 s k with
      | Some rest => Some rest
      | None => rmatch r2 s k
      end
  | Star r1 => star_loop (rmatch r1) k (String.length s) s
  end.

(** [pattern.match(s)]: the rest of [s] after the match, if there is one. *)
Definition re_match (r : regex) (s : string) : option string := rmatch r s Some.

(** [pattern.sub('', s)]: scan left to right; at each position either drop a
    match and go on behind it, or keep the character and move one ahead. An
    empty match replaces nothing. *)
Fixpoint re_sub_empty (fuel : nat) (r : regex) (s : string) : string :=
  match fuel with
  | O => s
  | S fuel' =>
      match s with
      | "" => ""
      | String c s' =>
          match re_match r s with
          | Some rest =>
              if (String.length rest <? String.length s)%nat
              then re_sub_empty fuel' r rest
              else String c (re_sub_empty fuel' r s')
          | None => String c (re_sub_empty fuel' r s')
          end
      end
  end.

(** The character classes of the pattern in [__strip_format]. *)
Definition cls_Fe : list (ascii * ascii) :=
  [("@"%char, "Z"%char); ("\"%char, "_"%char)].
Definition cls_param : list (ascii * ascii) := [("0"%char, "?"%char)].
Definition cls_inter : list (ascii * ascii) := [(" "%char, "/"%char)].
Definition cls_final : list (ascii * ascii) := [("@"%char, "~"%char)].

(** [r'\x1B(?:[@-Z\\-_]|\[[0-?]*[ -/]*[@-~])'] *)
Definition escape : regex :=
  Cat (Lit ESC)
      (Or (Class cls_Fe)
          (Cat (Lit "["%char)
               (Cat (Star (Class cls_param))
                    (Cat (Star (Class cls_inter)) (Class cls_final))))).

(** ** Values, dates and the instance *)

Module LogLevel.
Inductive t : Set := Info | Warning | Error.

Definition eqb (a b : t) : bool :=
  match a, b with
  | Info, Info | Warning, Warning | Error, Error => true
  | _, _ => false
  end.
End LogLevel.

(** What an untyped Python variable may hold where the code expects a
    [LogLevel]: a member of the enumeration or some other object. *)
Inductive pyobj : Type :=
| PyLevel (l : LogLevel.t)
| PyNone
| PyInt (z : Z)
| PyStr (s : string).

(** [a == b]. Members of a plain [Enum] are equal to themselves only. *)
Definition py_eq (a b : pyobj) : bool :=
  match a, b with
  | PyLevel x, PyLevel y => LogLevel.eqb x y
  | PyNone, PyNone => true
  | PyInt x, PyInt y => Z.eqb x y
  | PyStr x, PyStr y => String.eqb x y
  | _, _ => false
  end.

(** [a in l] for a list [l]. *)
Definition py_in (a : pyobj) (l : list pyobj) : bool := existsb (py_eq a) l.

Definition is_none (a : pyobj) : bool :=
  match a with PyNone => true | _ => false end.

(** The part of a [datetime] the logger reads. *)
Record datetime : Set := { year : nat; month : nat; day : nat }.

Inductive exn : Type :=
| ValueError (msg : string)
| FileNotFoundError (path : string).

Inductive result (A : Type) : Type :=
| Ok (a : A)
| Raise (e : exn).
Arguments Ok {A} a.
Arguments Raise {A} e.

Declare Scope py_scope.
Delimit Scope py_scope with py.

Module Logger.

(** The attributes [__init__] creates. *)
Record t : Type := {
  log_level : pyobj;
  _log_to_file : bool;
  _date : datetime;
  _filename : string;
  RESET : string;
  RED : string;
  BLUE : string;
  YELLOW : string;
  BOLD : string
}.

(** The interpreter state a method runs in. *)
Record State : Type := {
  self : t;
  stdout : string;
  disk : gmap string string
}.

Definition M (A : Type) : Type := State -> result A * State.

Definition ret {A} (a : A) : M A := fun st => (Ok a, st).

Definition bind {A B} (c : M A) (k : A -> M B) : M B :=
  fun st =>
    match c st with
    | (Ok a, st') => k a st'
    | (Raise e, st') => (Raise e, st')
    end.

Definition raise {A} (e : exn) : M A := fun st => (Raise e, st).

Definition get_self : M t := fun st => (Ok (self st), st).

Definition put_self (s : t) : M unit :=
  fun st => (Ok tt, {| self := s; stdout := stdout st; disk := disk st |}).

Notation "x <- c1 ;; c2" := (bind c1 (fun x => c2))
  (at level 100, c1 at next level, right associativity) : py_scope.
Notation "c1 ;; c2" := (bind c1 (fun _ => c2))
  (at level 100, right associativity) : py_scope.
Local Open Scope py_scope.

(** *** Built-ins with effects *)

(** [print(x)]: the text and a newline go to standard output. *)
Definition print (x : string) : M unit :=
  fun st =>
    (Ok tt, {| self := self st;
               stdout := stdout st ++ x ++ nl;
               disk := disk st |}).

(** [int(s)] as a statement that may raise. *)
Definition int (s : string) : M nat :=
  match py_int s with
  | Some n => ret n
  | None => raise (ValueError "invalid literal for int() with base 10")
  end.

(** [open(path, 'a+')]: the file is created empty when it is absent; the
    handle is the path, positioned at the end. *)
Definition open_append (path : string) : M string :=
  fun st =>
    (Ok path,
     {| self := self st; stdout := stdout st;
        disk := <[path := default "" (disk st !! path)]> (disk st) |}).

(** [handle.write(text)] in append mode. *)
Definition file_write (handle : string) (text : string) : M unit :=
  fun st =>
    (Ok tt,
     {| self := self st; stdout := stdout st;
        disk := <[handle := default "" (disk st !! handle) ++ text]> (disk st) |}).

(** [os.path.exists(path)] *)
Definition os_path_exists (path : string) : M bool :=
  fun st =>
    (Ok (match disk st !! path with Some _ => true | None => false end), st).

(** [os.remove(path)] *)
Definition os_remove (path : string) : M unit :=
  fun st =>
    match disk st !! path with
    | Some _ =>
        (Ok tt, {| self := self st; stdout := stdout st;
                   disk := delete path (disk st) |})
    | None => (Raise (FileNotFoundError path), st)
    end.

(** *** The constructor *)

Definition __init__ (log_level : pyobj) (log_to_file : bool) (now : datetime) : t :=
  {| log_level := log_level;
     _log_to_file := log_to_file;
     _date := now;
     _filename := "logs.txt";
     RESET := String ESC "[0m";
     RED := String ESC "[0;31m";
     BLUE := String ESC "[0;36m";
     YELLOW := String ESC "[0;33m";
     BOLD := String ESC "[1m" |}.

(** [Logger()] with both defaults. *)
Definition new (now : datetime) : t := __init__ (PyLevel LogLevel.Info) false now.

(** *** Private methods *)

Definition __log_level_to_string (log_level : pyobj) : M string :=
  s <- get_self ;;
  let level := if is_none log_level then Logger.log_level s else log_level in
  if py_eq level (PyLevel LogLevel.Info) then ret "info"
  else if py_eq level (PyLevel LogLevel.Warning) then ret "warning"
  else if py_eq level (PyLevel LogLevel.Error) then ret "error"
  else ret "info".

Definition __format_date : M string :=
  s <- get_self ;;
  let day := py_str (day (_date s)) in
  let month := py_str (month (_date s)) in
  d <- int day ;;
  let day := if (d <? 10)%nat then "0" ++ day else day in
  m <- int month ;;
  let month := if (m <? 10)%nat then "0" ++ month else month in
  ret (day ++ "/" ++ month ++ "/" ++ py_str (year (_date s))).

Definition __strip_format (input_string : string) : string :=
  re_sub_empty (String.length input_string) escape input_string.

Definition __get_format (color : string) (log_level : pyobj) : M string :=
  s <- get_self ;;
  date <- __format_date ;;
  level <- __log_level_to_string log_level ;;
  ret (color ++ BOLD s ++ "[" ++ date ++ "] " ++ upper level ++ ":"
         ++ RESET s ++ color).

Definition __write_to_file (format : string) : M unit :=
  s <- get_self ;;
  logs <- open_append (_filename s) ;;
  file_write logs (__strip_format format ++ nl).

(** *** Public methods *)

Definition reset : M unit :=
  s <- get_self ;;
  put_self {| log_level := PyLevel LogLevel.Info;
              _log_to_file := _log_to_file s; _date := _date s;
              _filename := _filename s; RESET := RESET s; RED := RED s;
              BLUE := BLUE s; YELLOW := YELLOW s; BOLD := BOLD s |}.

Definition info (format : string) : M unit :=
  s <- get_self ;;
  (if _log_to_file s then __write_to_file format else ret tt) ;;
  prefix <- __get_format (BLUE s) (PyLevel LogLevel.Info) ;;
  print (prefix ++ " " ++ format) ;;
  print (RESET s).

Definition warning (format : string) : M unit :=
  s <- get_self ;;
  (if _log_to_file s then __write_to_file format else ret tt) ;;
  prefix <- __get_format (YELLOW s) (PyLevel LogLevel.Warning) ;;
  print (prefix ++ " " ++ format) ;;
  print (RESET s).

Definition error (format : string) : M unit :=
  s <- get_self ;;
  (if _log_to_file s then __write_to_file format else ret tt) ;;
  prefix <- __get_format (RED s) (PyLevel LogLevel.Error) ;;
  print (prefix ++ " " ++ format) ;;
  print (RESET s).

Definition log (format : string) : M unit :=
  s <- get_self ;;
  if py_eq (log_level s) (PyLevel LogLevel.Info) then info format
  else if py_eq (log_level s) (PyLevel LogLevel.Warning) then warning format
  else if py_eq (log_level s) (PyLevel LogLevel.Error) then error format
  else ret tt.

Definition set_level (log_level : pyobj) : M unit :=
  if negb (py_in log_level [PyLevel LogLevel.Info; PyLevel LogLevel.Warning;
                            PyLevel LogLevel.Error])
  then raise (ValueError "log_level must be LogLevel.{Info, Warning, Error}")
  else
    s <- get_self ;;
    put_self {| log_level := log_level;
                _log_to_file := _log_to_file s; _date := _date s;
                _filename := _filename s; RESET := RESET s; RED := RED s;
                BLUE := BLUE s; YELLOW := YELLOW s; BOLD := BOLD s |}.

Definition enable_file_logging : M unit :=
  s <- get_self ;;
  put_self {| log_level := Logger.log_level s;
              _log_to_file := true; _date := _date s;
              _filename := _filename s; RESET := RESET s; RED := RED s;
              BLUE := BLUE s; YELLOW := YELLOW s; BOLD := BOLD s |}.

Definition disable_file_logging : M unit :=
  s <- get_self ;;
  put_self {| log_level := Logger.log_level s;
              _log_to_file := false; _date := _date s;
              _filename := _filename s; RESET := RESET s; RED := RED s;
              BLUE := BLUE s; YELLOW := YELLOW s; BOLD := BOLD s |}.

Definition clean_logs : M unit :=
  s <- get_self ;;
  found <- os_path_exists (_filename s) ;;
  if found then os_remove (_filename s) else ret tt.

End Logger.

(** ** Definitions used to state the properties *)

(** The longest prefix of [s] made of characters of a class, dropped. *)
Fixpoint skip (ranges : list (ascii * ascii)) (s : string) : string :=
  match s with
  | "" => ""
  | String a s' => if in_class ranges a then skip ranges s' else s
  end.

(** A deterministic reading of the pattern [escape]: what is left of [s]
    after an escape sequence at its start. *)
Definition scan_escape (s : string) : option string :=
  match s with
  | String a (String b s2) =>
      if Ascii.eqb a ESC then
        if in_class cls_Fe b then Some s2
        else if Ascii.eqb b "["%char then
          match skip cls_inter (skip cls_param s2) with
          | String f s5 => if in_class cls_final f then Some s5 else None
          | "" => None
          end
        else None
      else None
  | _ => None
  end.

(** A text seen as pieces: plain text without the escape character, a
    two-character escape sequence [ESC c], or a control sequence
    [ESC [ params inter final]. *)
Inductive segment : Type :=
| Text (t : string)
| EscFe (c : ascii)
| EscCSI (params inter : string) (final : ascii).

Definition segment_ok (g : segment) : bool :=
  match g with
  | Text t => negb (Str.mem ESC t)
  | EscFe c => in_class cls_Fe c
  | EscCSI params inter final =>
      Str.all (in_class cls_param) params &&
      Str.all (in_class cls_inter) inter &&
      in_class cls_final final
  end.

(** The characters of a piece, and what is left of it without styling. *)
Definition render (g : segment) : string :=
  match g with
  | Text t => t
  | EscFe c => String ESC (String c "")
  | EscCSI params inter final =>
      String ESC (String "[" (params ++ inter ++ String final ""))
  end.

Definition plain (g : segment) : string :=
  match g with
  | Text t => t
  | _ => ""
  end.

Fixpoint render_all (gs : list segment) : string :=
  match gs with
  | [] => ""
  | g :: gs' => render g ++ render_all gs'
  end.

Fixpoint plain_all (gs : list segment) : string :=
  match gs with
  | [] => ""
  | g :: gs' => plain g ++ plain_all gs'
  end.

(** The value [__format_date] computes from the captured date: the two
    conditionals of the method, then its f-string. *)
Definition pad (n : nat) : string :=
  if (n <? 10)%nat then "0" ++ py_str n else py_str n.

Definition date_text (d : datetime) : string :=
  pad (day d) ++ "/" ++ pad (month d) ++ "/" ++ py_str (year d).

(** A number below one hundred written with exactly two decimal digits. *)
Definition two_digits (n : nat) : string :=
  String (ascii_of_nat (48 + n / 10)) (String (ascii_of_nat (48 + n mod 10)) "").

(** The ranges [datetime] accepts for the three fields. *)
Definition valid_date (d : datetime) : bool :=
  ((1 <=? day d) && (day d <=? 31) && (1 <=? month d) && (month d <=? 12) &&
   (1 <=? year d) && (year d <=? 9999))%nat.

(** The argument of the first [print] of [info], [warning] and [error]: the
    f-string of [__get_format], a space, and the message. *)
Definition console_line (s : Logger.t) (color label msg : string) : string :=
  (color ++ Logger.BOLD s ++ "[" ++ date_text (Logger._date s) ++ "] " ++ label
     ++ ":" ++ Logger.RESET s ++ color) ++ " " ++ msg.

(** The attributes no method assigns still hold what [__init__] gave them. *)
Definition styled (s : Logger.t) : Prop :=
  Logger.RESET s = String ESC "[0m" /\
  Logger.RED s = String ESC "[0;31m" /\
  Logger.BLUE s = String ESC "[0;36m" /\
  Logger.YELLOW s = String ESC "[0;33m" /\
  Logger.BOLD s = String ESC "[1m".

(** The state an emit method leaves behind: the instance as it was, two more
    lines on standard output and, when mirroring is on, more text at the end
    of the log file. *)
Definition after_emit (st : Logger.State) (color label msg : string) : Logger.State :=
  let s := Logger.self st in
  {| Logger.self := s;
     Logger.stdout :=
       Logger.stdout st ++ console_line s color label msg ++ nl
         ++ Logger.RESET s ++ nl;
     Logger.disk :=
       if Logger._log_to_file s
       then <[Logger._filename s :=
                default "" (Logger.disk st !! Logger._filename s)
                  ++ Logger.__strip_format msg ++ nl]> (Logger.disk st)
       else Logger.disk st |}.

(** The emit method named after a level. *)
Definition emit_for (l : LogLevel.t) : string -> Logger.M unit :=
  match l with
  | LogLevel.Info => Logger.info
  | LogLevel.Warning => Logger.warning
  | LogLevel.Error => Logger.error
  end.

(** Calls of the public methods, and programs made of them. A raised
    exception ends the program. *)
Inductive call : Type :=
| CallReset
| CallLog (format : string)
| CallInfo (format : string)
| CallWarning (format : string)
| CallError (format : string)
| CallSetLevel (log_level : pyobj)
| CallEnableFileLogging
| CallDisableFileLogging
| CallCleanLogs.

Definition exec (c : call) : Logger.M unit :=
  match c with
  | CallReset => Logger.reset
  | CallLog format => Logger.log format
  | CallInfo format => Logger.info format
  | CallWarning format => Logger.warning format
  | CallError format => Logger.error format
  | CallSetLevel log_level => Logger.set_level log_level
  | CallEnableFileLogging => Logger.enable_file_logging
  | CallDisableFileLogging => Logger.disable_file_logging
  | CallCleanLogs => Logger.clean_logs
  end.

Fixpoint exec_all (cs : list call) : Logger.M unit :=
  match cs with
  | [] => Logger.ret tt
  | c :: cs' => Logger.bind (exec c) (fun _ => exec_all cs')
  end.

Definition sets_level (c : call) : bool :=
  match c with
  | CallSetLevel _ => true
  | _ => false
  end.

(** A logger built on 5 March 2024, with nothing printed and no file yet. *)
Definition example_state (log_level : pyobj) (log_to_file : bool) : Logger.State :=
  {| Logger.self :=
       Logger.__init__ log_level log_to_file {| year := 2024; month := 3; day := 5 |};
     Logger.stdout := "";
     Logger.disk := ∅ |}.

(** A piece that is an escape sequence of the pattern, well formed. *)
Definition is_escape (g : segment) : bool :=
  match g with
  | Text _ => false
  | _ => segment_ok g
  end.

(** What may follow the parameter and intermediate bytes of a control
    sequence that is cut short: the end of the text, or a character of none
    of the three classes (a line feed, another escape character). *)
Definition cut_short (rest : string) : bool :=
  match rest with
  | "" => true
  | String c _ =>
      negb (in_class cls_param c || in_class cls_inter c || in_class cls_final c)
  end.

(** The lower-case name [__log_level_to_string] gives a member. *)
Definition label (l : LogLevel.t) : string :=
  match l with
  | LogLevel.Info => "info"
  | LogLevel.Warning => "warning"
  | LogLevel.Error => "error"
  end.

(** The call of the emit method named after a level. *)
Definition emit_call (l : LogLevel.t) (format : string) : call :=
  match l with
  | LogLevel.Info => CallInfo format
  | LogLevel.Warning => CallWarning format
  | LogLevel.Error => CallError format
  end.

(** What a run of emit calls adds to the log file while mirroring is on. *)
Fixpoint mirrored (ms : list (LogLevel.t * string)) : string :=
  match ms with
  | [] => ""
  | (_, format) :: ms' => Logger.__strip_format format ++ nl ++ mirrored ms'
  end.

Definition is_clean (c : call) : bool :=
  match c with
  | CallCleanLogs => true
  | _ => false
  end.

(** The calls that may print: the three emit methods and [log]. *)
Definition may_print (c : call) : bool :=
  match c with
  | CallLog _ | CallInfo _ | CallWarning _ | CallError _ => true
  | _ => false
  end.

(** A fresh default logger in a directory that holds one other file. *)
Definition example_with_notes : Logger.State :=
  {| Logger.self := Logger.new {| year := 2024; month := 3; day := 5 |};
     Logger.stdout := "";
     Logger.disk := {[ "notes.txt" := "keep" ]} |}.

(** ** Facts about strings *)

Module StrFacts.

Lemma app_cons c (s t : string) : String c s ++ t = String c (s ++ t).
Proof. reflexivity. Qed.

Lemma app_nil_r (s : string) : s ++ "" = s.
Proof. induction s as [|c s IH]; [reflexivity|]. by rewrite app_cons, IH. Qed.

Lemma app_assoc (s t u : string) : (s ++ t) ++ u = s ++ (t ++ u).
Proof. induction s as [|c s IH]; [reflexivity|]. by rewrite !app_cons, IH. Qed.

Lemma length_app (s t : string) :
  String.length (s ++ t) = String.length s + String.length t.
Proof. induction s as [|c s IH]; [reflexivity|]. rewrite app_cons. simpl. lia. Qed.

Lemma mem_app c (s t : string) :
  Str.mem c (s ++ t) = Str.mem c s || Str.mem c t.
Proof.
  induction s as [|a s IH]; [reflexivity|].
  rewrite app_cons. simpl. rewrite IH. by rewrite orb_assoc.
Qed.

End StrFacts.

(** ** The pattern never needs to backtrack *)

Ltac ascii_cases c :=
  destruct c as [[] [] [] [] [] [] [] []]; vm_compute; try reflexivity;
  try discriminate.

Lemma param_not_inter c : in_class cls_param c = true -> in_class cls_inter c = false.
Proof. ascii_cases c. Qed.

Lemma param_not_final c : in_class cls_param c = true -> in_class cls_final c = false.
Proof. ascii_cases c. Qed.

Lemma inter_not_final c : in_class cls_inter c = true -> in_class cls_final c = false.
Proof. ascii_cases c. Qed.

Lemma inter_not_param c : in_class cls_inter c = true -> in_class cls_param c = false.
Proof. ascii_cases c. Qed.

Lemma final_not_param c : in_class cls_final c = true -> in_class cls_param c = false.
Proof. ascii_cases c. Qed.

Lemma final_not_inter c : in_class cls_final c = true -> in_class cls_inter c = false.
Proof. ascii_cases c. Qed.

Lemma skip_length ranges s : String.length (skip ranges s) <= String.length s.
Proof.
  induction s as [|a s IH]; simpl; [lia|].
  destruct (in_class ranges a); simpl; lia.
Qed.

Lemma skip_stop ranges a s :
  in_class ranges a = false -> skip ranges (String a s) = String a s.
Proof. intros H. simpl. by rewrite H. Qed.

Lemma skip_app ranges p s :
  Str.all (in_class ranges) p = true -> skip ranges (p ++ s) = skip ranges s.
Proof.
  induction p as [|a p IH]; intros H; [reflexivity|].
  simpl in H. apply andb_true_iff in H as [Ha Hp].
  rewrite StrFacts.app_cons. simpl. rewrite Ha. auto.
Qed.

(** A greedy star over a character class, followed by something that cannot
    start with a character of that class, takes the whole run: giving a
    character back never helps. *)
Lemma star_loop_class ranges k n s :
  String.length s <= n ->
  (forall c t, in_class ranges c = true -> k (String c t) = None) ->
  star_loop (rmatch (Class ranges)) k n s = k (skip ranges s).
Proof.
  intros Hn Hk. revert s Hn.
  induction n as [|n IH]; intros s Hn.
  - destruct s; simpl in *; [reflexivity|lia].
  - destruct s as [|a s]; [reflexivity|].
    simpl in Hn. cbn [star_loop rmatch skip].
    destruct (in_class ranges a) eqn:Ha; [|reflexivity].
    assert (Hlt : (String.length s <? String.length (String a s))%nat = true)
      by (apply Nat.ltb_lt; simpl; lia).
    rewrite Hlt. fold (star_loop (rmatch (Class ranges)) k).
    rewrite IH by lia.
    destruct (k (skip ranges s)) eqn:Hks; [reflexivity|].
    by apply Hk.
Qed.

Lemma rmatch_lit c a s k :
  rmatch (Lit c) (String a s) k = if Ascii.eqb a c then k s else None.
Proof. reflexivity. Qed.

Lemma rmatch_class ranges a s k :
  rmatch (Class ranges) (String a s) k = if in_class ranges a then k s else None.
Proof. reflexivity. Qed.

Lemma rmatch_class_nil ranges k : rmatch (Class ranges) "" k = None.
Proof. reflexivity. Qed.

Lemma rmatch_cat r1 r2 s k :
  rmatch (Cat r1 r2) s k = rmatch r1 s (fun s1 => rmatch r2 s1 k).
Proof. reflexivity. Qed.

Lemma rmatch_or r1 r2 s k :
  rmatch (Or r1 r2) s k =
  match rmatch r1 s k with Some rest => Some rest | None => rmatch r2 s k end.
Proof. reflexivity. Qed.

Lemma rmatch_star r s k :
  rmatch (Star r) s k = star_loop (rmatch r) k (String.length s) s.
Proof. reflexivity. Qed.

(** The run of intermediate bytes and the final byte of a control sequence. *)
Lemma rmatch_inter_final s :
  rmatch (Cat (Star (Class cls_inter)) (Class cls_final)) s Some =
  match skip cls_inter s with
  | String f s5 => if in_class cls_final f then Some s5 else None
  | "" => None
  end.
Proof.
  rewrite rmatch_cat, rmatch_star, star_loop_class; [|lia|].
  - by destruct (skip cls_inter s).
  - intros c t Hc. by rewrite rmatch_class, (inter_not_final c Hc).
Qed.

Lemma re_match_escape s : re_match escape s = scan_escape s.
Proof.
  unfold re_match, escape, scan_escape.
  destruct s as [|a [|b s2]]; [reflexivity| |].
  - rewrite rmatch_cat, rmatch_lit. by destruct (Ascii.eqb a ESC).
  - rewrite rmatch_cat, rmatch_lit.
    destruct (Ascii.eqb a ESC); [|reflexivity].
    rewrite rmatch_or, rmatch_class.
    destruct (in_class cls_Fe b) eqn:HFe; [reflexivity|].
    rewrite rmatch_cat, rmatch_lit.
    destruct (Ascii.eqb b "["); [|reflexivity].
    rewrite rmatch_cat, rmatch_star, star_loop_class; [|lia|].
    + apply rmatch_inter_final.
    + intros c t Hc. rewrite rmatch_inter_final.
      rewrite skip_stop by by apply param_not_inter.
      by rewrite (param_not_final c Hc).
Qed.

(** ** Equations of [__strip_format] *)

Lemma scan_escape_shorter s rest :
  scan_escape s = Some rest -> String.length rest < String.length s.
Proof.
  unfold scan_escape. destruct s as [|a [|b s2]]; try discriminate.
  destruct (Ascii.eqb a ESC); [|discriminate].
  destruct (in_class cls_Fe b).
  { intros [= <-]. simpl. lia. }
  destruct (Ascii.eqb b "["); [|discriminate].
  pose proof (skip_length cls_inter (skip cls_param s2)) as H1.
  pose proof (skip_length cls_param s2) as H2.
  destruct (skip cls_inter (skip cls_param s2)) as [|f s5]; [discriminate|].
  destruct (in_class cls_final f); [|discriminate].
  intros [= <-]. simpl in *. lia.
Qed.

Lemma re_sub_empty_fuel n m s :
  String.length s <= n -> String.length s <= m ->
  re_sub_empty n escape s = re_sub_empty m escape s.
Proof.
  revert m s. induction n as [|n IH]; intros m s Hn Hm.
  - destruct s; simpl in Hn; [|lia]. by destruct m.
  - destruct m as [|m].
    { destruct s; simpl in Hm; [reflexivity|lia]. }
    destruct s as [|a s]; [reflexivity|].
    simpl in Hn, Hm. cbn [re_sub_empty].
    rewrite re_match_escape.
    destruct (scan_escape (String a s)) as [rest|] eqn:Hscan.
    + apply scan_escape_shorter in Hscan as Hlt.
      apply Nat.ltb_lt in Hlt as Hltb. rewrite Hltb.
      simpl in Hlt. apply IH; lia.
    + f_equal. apply IH; lia.
Qed.

Lemma strip_nil : Logger.__strip_format "" = "".
Proof. reflexivity. Qed.

Lemma strip_cons a s :
  Logger.__strip_format (String a s) =
  match scan_escape (String a s) with
  | Some rest => Logger.__strip_format rest
  | None => String a (Logger.__strip_format s)
  end.
Proof.
  unfold Logger.__strip_format. cbn [String.length re_sub_empty].
  rewrite re_match_escape.
  destruct (scan_escape (String a s)) as [rest|] eqn:Hscan.
  - apply scan_escape_shorter in Hscan as Hlt. simpl in Hlt.
    apply Nat.ltb_lt in Hlt as Hltb. rewrite Hltb.
    apply re_sub_empty_fuel; lia.
  - reflexivity.
Qed.

Lemma scan_escape_other a s :
  Ascii.eqb a ESC = false -> scan_escape (String a s) = None.
Proof. intros H. unfold scan_escape. destruct s; [reflexivity|]. by rewrite H. Qed.

(** Text without the escape character passes through unchanged. *)
Lemma strip_text t s :
  Str.mem ESC t = false ->
  Logger.__strip_format (t ++ s) = t ++ Logger.__strip_format s.
Proof.
  induction t as [|a t IH]; intros H; [reflexivity|].
  simpl in H. apply orb_false_iff in H as [Ha Ht].
  rewrite !StrFacts.app_cons, strip_cons, scan_escape_other by done.
  by rewrite IH.
Qed.

(** A two-character sequence [ESC c] with [c] in [@-Z\-_] is removed. *)
Lemma strip_Fe c s :
  in_class cls_Fe c = true ->
  Logger.__strip_format (String ESC (String c s)) = Logger.__strip_format s.
Proof. intros H. rewrite strip_cons. unfold scan_escape. by rewrite Ascii.eqb_refl, H. Qed.

(** A control sequence [ESC [ params inter final] is removed. *)
Lemma strip_CSI params inter final s :
  Str.all (in_class cls_param) params = true ->
  Str.all (in_class cls_inter) inter = true ->
  in_class cls_final final = true ->
  Logger.__strip_format
    (String ESC (String "[" (params ++ inter ++ String final s))) =
  Logger.__strip_format s.
Proof.
  intros Hp Hi Hf. rewrite strip_cons. unfold scan_escape.
  rewrite Ascii.eqb_refl.
  replace (in_class cls_Fe "[") with false by reflexivity.
  rewrite Ascii.eqb_refl, (skip_app _ _ _ Hp).
  assert (Hstop : skip cls_param (inter ++ String final s) = inter ++ String final s).
  { destruct inter as [|i inter]; simpl in Hi.
    - change ("" ++ String final s) with (String final s).
      apply skip_stop. by apply final_not_param.
    - apply andb_true_iff in Hi as [Hi _].
      rewrite StrFacts.app_cons. apply skip_stop. by apply inter_not_param. }
  rewrite Hstop, (skip_app _ _ _ Hi).
  rewrite skip_stop by by apply final_not_inter.
  by rewrite Hf.
Qed.

(** ** Decimal numerals *)

Lemma to_uint_normal n : Nat.to_uint n = Decimal.unorm (Nat.to_uint n).
Proof.
  rewrite <- (Unsigned.to_of (Nat.to_uint n)). by rewrite Unsigned.of_to.
Qed.

Lemma to_uint_nonnil n : Nat.to_uint n <> Decimal.Nil.
Proof. rewrite to_uint_normal. apply unorm_nonnil. Qed.

Lemma py_int_str n : py_int (py_str n) = Some n.
Proof.
  unfold py_int, py_str.
  pose proof (to_uint_nonnil n) as Hn.
  replace (NilEmpty.string_of_uint (Nat.to_uint n))
    with (NilZero.string_of_uint (Nat.to_uint n))
    by (unfold NilZero.string_of_uint; by destruct (Nat.to_uint n)).
  rewrite NilZero.usu by done. simpl. by rewrite Unsigned.of_to.
Qed.



(** A positive number is written without a leading zero. *)
Lemma py_str_no_leading_zero n :
  n <> 0 -> String.get 0 (py_str n) <> Some "0"%char.
Proof.
  intros Hn Hget. unfold py_str in Hget.
  destruct (Nat.to_uint n) as [|d| | | | | | | | |] eqn:E; simpl in Hget;
    try discriminate.
  pose proof (to_uint_normal n) as Hnorm. rewrite E in Hnorm.
  unfold Decimal.unorm in Hnorm.
  destruct (Decimal.nzhead (Decimal.D0 d)) as [|u| | | | | | | | |] eqn:Hz;
    try discriminate.
  - injection Hnorm as ->.
    apply Hn. rewrite <- (Unsigned.of_to n), E. reflexivity.
  - by apply nzhead_nonzero in Hz.
Qed.



Lemma pad_two_digits n : n < 100 -> pad n = two_digits n.
Proof.
  intros Hn.
  do 100 (destruct n as [|n]; [vm_compute; reflexivity|]). lia.
Qed.

(** ** Running the methods *)

Lemma format_date_run st :
  Logger.__format_date st = (Ok (date_text (Logger._date (Logger.self st))), st).
Proof.
  unfold Logger.__format_date, Logger.bind, Logger.get_self, Logger.int.
  rewrite !py_int_str. reflexivity.
Qed.

Lemma log_level_to_string_run l st :
  Logger.__log_level_to_string (PyLevel l) st =
  (Ok match l with
      | LogLevel.Info => "info"
      | LogLevel.Warning => "warning"
      | LogLevel.Error => "error"
      end, st).
Proof. by destruct l. Qed.

Lemma get_format_run color l st :
  Logger.__get_format color (PyLevel l) st =
  (Ok (color ++ Logger.BOLD (Logger.self st) ++ "["
         ++ date_text (Logger._date (Logger.self st)) ++ "] "
         ++ match l with
            | LogLevel.Info => "INFO"
            | LogLevel.Warning => "WARNING"
            | LogLevel.Error => "ERROR"
            end
         ++ ":" ++ Logger.RESET (Logger.self st) ++ color), st).
Proof.
  unfold Logger.__get_format, Logger.bind at 1 2, Logger.get_self.
  rewrite format_date_run.
  unfold Logger.bind. rewrite log_level_to_string_run.
  by destruct l.
Qed.

Lemma write_to_file_run format st :
  Logger.__write_to_file format st =
  (Ok tt,
   {| Logger.self := Logger.self st;
      Logger.stdout := Logger.stdout st;
      Logger.disk :=
        <[Logger._filename (Logger.self st) :=
            default "" (Logger.disk st !! Logger._filename (Logger.self st))
              ++ Logger.__strip_format format ++ nl]> (Logger.disk st) |}).
Proof.
  unfold Logger.__write_to_file, Logger.bind, Logger.get_self,
    Logger.open_append, Logger.file_write.
  cbn [Logger.self Logger.stdout Logger.disk].
  by rewrite lookup_insert_eq, insert_insert_eq.
Qed.

Ltac emit_run :=
  intros;
  unfold Logger.info, Logger.warning, Logger.error, after_emit, console_line;
  unfold Logger.bind at 1 2, Logger.get_self;
  lazymatch goal with
  | |- context [Logger._log_to_file ?s] => destruct (Logger._log_to_file s)
  end;
  [rewrite write_to_file_run | unfold Logger.ret at 1];
  unfold Logger.bind at 1; rewrite get_format_run; cbn [Logger.self];
  unfold Logger.bind, Logger.print; cbn [Logger.self Logger.stdout Logger.disk];
  by rewrite !StrFacts.app_assoc.

Lemma info_run format st :
  Logger.info format st =
  (Ok tt, after_emit st (Logger.BLUE (Logger.self st)) "INFO" format).
Proof. emit_run. Qed.

Lemma warning_run format st :
  Logger.warning format st =
  (Ok tt, after_emit st (Logger.YELLOW (Logger.self st)) "WARNING" format).
Proof. emit_run. Qed.

Lemma error_run format st :
  Logger.error format st =
  (Ok tt, after_emit st (Logger.RED (Logger.self st)) "ERROR" format).
Proof. emit_run. Qed.

Lemma log_run format st :
  Logger.log format st =
  match Logger.log_level (Logger.self st) with
  | PyLevel l => emit_for l format st
  | _ => (Ok tt, st)
  end.
Proof.
  unfold Logger.log, Logger.bind, Logger.get_self.
  destruct (Logger.log_level (Logger.self st)) as [[]| | |]; reflexivity.
Qed.

Lemma emit_for_run l format st :
  emit_for l format st =
  (Ok tt,
   after_emit st
     match l with
     | LogLevel.Info => Logger.BLUE (Logger.self st)
     | LogLevel.Warning => Logger.YELLOW (Logger.self st)
     | LogLevel.Error => Logger.RED (Logger.self st)
     end
     match l with
     | LogLevel.Info => "INFO"
     | LogLevel.Warning => "WARNING"
     | LogLevel.Error => "ERROR"
     end format).
Proof. destruct l; [apply info_run | apply warning_run | apply error_run]. Qed.

Lemma clean_logs_run st :
  Logger.clean_logs st =
  (Ok tt,
   {| Logger.self := Logger.self st;
      Logger.stdout := Logger.stdout st;
      Logger.disk := delete (Logger._filename (Logger.self st)) (Logger.disk st) |}).
Proof.
  unfold Logger.clean_logs, Logger.bind, Logger.get_self, Logger.os_path_exists,
    Logger.os_remove.
  destruct (Logger.disk st !! Logger._filename (Logger.self st)) eqn:E.
  - by rewrite E.
  - rewrite delete_id by done. by destruct st.
Qed.

(** ** The attributes that stay as [__init__] set them *)

Lemma styled_init log_level log_to_file now :
  styled (Logger.__init__ log_level log_to_file now).
Proof. by repeat split. Qed.

Lemma exec_self c st :
  let s := Logger.self st in
  let s' := Logger.self (snd (exec c st)) in
  Logger._date s' = Logger._date s /\ Logger._filename s' = Logger._filename s /\
  Logger.RESET s' = Logger.RESET s /\ Logger.RED s' = Logger.RED s /\
  Logger.BLUE s' = Logger.BLUE s /\ Logger.YELLOW s' = Logger.YELLOW s /\
  Logger.BOLD s' = Logger.BOLD s /\
  (sets_level c = false ->
   Logger.log_level s = PyLevel LogLevel.Info ->
   Logger.log_level s' = PyLevel LogLevel.Info).
Proof.
  destruct c as [|m|m|m|m|v| | |]; cbn [exec];
    rewrite ?info_run, ?warning_run, ?error_run, ?clean_logs_run, ?log_run;
    try (cbn; by repeat split).
  - destruct (Logger.log_level (Logger.self st)) as [l| | |] eqn:E;
      rewrite ?emit_for_run; cbn; rewrite ?E; repeat split; done.
  - unfold Logger.set_level.
    destruct (negb _); cbn; repeat split; done.
Qed.

Lemma exec_all_self cs st :
  let s := Logger.self st in
  let s' := Logger.self (snd (exec_all cs st)) in
  (styled s -> styled s') /\
  (forallb (fun c => negb (sets_level c)) cs = true ->
   Logger.log_level s = PyLevel LogLevel.Info ->
   Logger.log_level s' = PyLevel LogLevel.Info).
Proof.
  revert st. induction cs as [|c cs IH]; intros st; [by split|].
  cbn [exec_all forallb]. unfold Logger.bind.
  pose proof (exec_self c st) as (_ & _ & H1 & H2 & H3 & H4 & H5 & Hl).
  destruct (exec c st) as [[[]|e] st1]; cbn [snd] in *.
  - specialize (IH st1) as [IHs IHl]. cbn zeta in *. split.
    + intros (? & ? & ? & ? & ?). apply IHs. unfold styled. by rewrite H1, H2, H3, H4, H5.
    + intros [Hc Hcs]%andb_true_iff Hs. apply IHl; [done|].
      apply Hl; [by apply negb_true_iff|done].
  - cbn zeta. split.
    + intros (? & ? & ? & ? & ?). unfold styled. by rewrite H1, H2, H3, H4, H5.
    + intros [Hc Hcs]%andb_true_iff Hs. apply Hl; [by apply negb_true_iff|done].
Qed.

(** ** Stripping a text given by its pieces *)

Lemma strip_plain t : Str.mem ESC t = false -> Logger.__strip_format t = t.
Proof.
  intros H. rewrite <- (StrFacts.app_nil_r t) at 1.
  by rewrite strip_text, strip_nil, StrFacts.app_nil_r.
Qed.

Lemma strip_segments gs :
  forallb segment_ok gs = true ->
  Logger.__strip_format (render_all gs) = plain_all gs.
Proof.
  induction gs as [|g gs IH]; intros H; [reflexivity|].
  cbn [forallb] in H. apply andb_true_iff in H as [Hg Hgs].
  cbn [render_all plain_all]. destruct g as [t|c|params inter final]; cbn [render plain].
  - apply negb_true_iff in Hg. rewrite strip_text by done. by rewrite IH.
  - cbn [segment_ok] in Hg. rewrite !StrFacts.app_cons.
    change ("" ++ render_all gs) with (render_all gs).
    rewrite strip_Fe by done. by rewrite IH.
  - cbn [segment_ok] in Hg.
    apply andb_true_iff in Hg as [[Hp Hi]%andb_true_iff Hf].
    rewrite !StrFacts.app_cons, !StrFacts.app_assoc, StrFacts.app_cons.
    change ("" ++ render_all gs) with (render_all gs).
    rewrite strip_CSI by done. by rewrite IH.
Qed.

Lemma exec_ok c st : sets_level c = false -> fst (exec c st) = Ok tt.
Proof.
  destruct c as [|m|m|m|m|v| | |]; cbn [exec sets_level]; try discriminate; intros _;
    rewrite ?info_run, ?warning_run, ?error_run, ?clean_logs_run, ?log_run;
    try reflexivity.
  destruct (Logger.log_level (Logger.self st)); rewrite ?emit_for_run; reflexivity.
Qed.

Lemma exec_all_ok cs st :
  forallb (fun c => negb (sets_level c)) cs = true -> fst (exec_all cs st) = Ok tt.
Proof.
  revert st. induction cs as [|c cs IH]; intros st H; [reflexivity|].
  cbn [forallb] in H. apply andb_true_iff in H as [Hc%negb_true_iff Hcs].
  cbn [exec_all]. unfold Logger.bind.
  pose proof (exec_ok c st Hc) as Hok.
  destruct (exec c st) as [[[]|e] st1]; cbn [fst] in Hok; [|discriminate].
  by apply IH.
Qed.

(** Every state reached from a fresh instance by calls of public methods has
    the style attributes of [__init__], so C2 applies to it. *)
Lemma styled_reachable log_level log_to_file now out files cs :
  styled
    (Logger.self
       (snd (exec_all cs
               {| Logger.self := Logger.__init__ log_level log_to_file now;
                  Logger.stdout := out;
                  Logger.disk := files |}))).
Proof. apply exec_all_self. apply styled_init. Qed.

(** * The claims *)




(** C2. On a logger whose style attributes are those of [__init__], and
    whatever its current level, [info], [warning] and [error] return normally
    and add to the console the line
    [color bold [date] LEVEL: reset color  message] and then a line holding
    the reset code alone, with cyan-blue [ESC[0;36m] and INFO for [info],
    yellow [ESC[0;33m] and WARNING for [warning], red [ESC[0;31m] and ERROR
    for [error]. *)
Theorem C2_console_lines st format :
  styled (Logger.self st) ->
  let date := date_text (Logger._date (Logger.self st)) in
  let reset := String ESC "[0m" in
  let bold := String ESC "[1m" in
  let line (color LEVEL : string) :=
    color ++ bold ++ "[" ++ date ++ "] " ++ LEVEL ++ ":" ++ reset ++ color
      ++ " " ++ format in
  (fst (Logger.info format st) = Ok tt /\
   Logger.stdout (snd (Logger.info format st)) =
     Logger.stdout st ++ line (String ESC "[0;36m") "INFO" ++ nl ++ reset ++ nl) /\
  (fst (Logger.warning format st) = Ok tt /\
   Logger.stdout (snd (Logger.warning format st)) =
     Logger.stdout st ++ line (String ESC "[0;33m") "WARNING" ++ nl ++ reset ++ nl) /\
  (fst (Logger.error format st) = Ok tt /\
   Logger.stdout (snd (Logger.error format st)) =
     Logger.stdout st ++ line (String ESC "[0;31m") "ERROR" ++ nl ++ reset ++ nl).
Proof.
  intros (Hreset & Hred & Hblue & Hyellow & Hbold) date reset bold line.
  rewrite info_run, warning_run, error_run.
  unfold after_emit, console_line, line. cbn [fst snd Logger.stdout].
  rewrite Hreset, Hred, Hblue, Hyellow, Hbold.
  by rewrite !StrFacts.app_assoc.
Qed.

Lemma C2_console_lines_witness :
  Logger.stdout (snd (Logger.warning "low battery"
                        (example_state (PyLevel LogLevel.Error) false))) =
  "" ++ (String ESC "[0;33m" ++ String ESC "[1m" ++ "["
           ++ date_text {| year := 2024; month := 3; day := 5 |} ++ "] "
           ++ "WARNING" ++ ":" ++ String ESC "[0m" ++ String ESC "[0;33m"
           ++ " " ++ "low battery")
     ++ nl ++ String ESC "[0m" ++ nl.
Proof.
  apply (C2_console_lines (example_state (PyLevel LogLevel.Error) false) "low battery").
  apply styled_init.
Defined.

(** C3. Whatever the rest of the state, [log] with the current level
    [Warning] is the call [warning] with the same message: same result, same
    console text, same files; likewise [Info] gives [info] and [Error] gives
    [error]. *)
Theorem C3_log_dispatch st format :
  (Logger.log_level (Logger.self st) = PyLevel LogLevel.Warning ->
   Logger.log format st = Logger.warning format st) /\
  (Logger.log_level (Logger.self st) = PyLevel LogLevel.Info ->
   Logger.log format st = Logger.info format st) /\
  (Logger.log_level (Logger.self st) = PyLevel LogLevel.Error ->
   Logger.log format st = Logger.error format st).
Proof.
  rewrite log_run. repeat split; intros ->; reflexivity.
Qed.

Lemma C3_log_dispatch_witness :
  Logger.log "hello" (example_state (PyLevel LogLevel.Warning) true) =
  Logger.warning "hello" (example_state (PyLevel LogLevel.Warning) true).
Proof.
  apply (proj1 (C3_log_dispatch (example_state (PyLevel LogLevel.Warning) true) "hello")).
  reflexivity.
Defined.

(** C4. After [reset] the level is [Info], and [log] is [info] right away and
    after any further calls of public methods other than [set_level], all of
    which return normally. *)
Theorem C4_reset_then_log st cs format :
  forallb (fun c => negb (sets_level c)) cs = true ->
  let st1 := snd (Logger.reset st) in
  let st2 := snd (exec_all cs st1) in
  fst (Logger.reset st) = Ok tt /\
  Logger.log_level (Logger.self st1) = PyLevel LogLevel.Info /\
  Logger.log format st1 = Logger.info format st1 /\
  fst (exec_all cs st1) = Ok tt /\
  Logger.log_level (Logger.self st2) = PyLevel LogLevel.Info /\
  Logger.log format st2 = Logger.info format st2.
Proof.
  intros Hcs st1 st2.
  assert (H1 : Logger.log_level (Logger.self st1) = PyLevel LogLevel.Info) by reflexivity.
  assert (H2 : Logger.log_level (Logger.self st2) = PyLevel LogLevel.Info).
  { by apply (exec_all_self cs st1). }
  split; [reflexivity|]. split; [exact H1|].
  split; [by rewrite log_run, H1|].
  split; [by apply exec_all_ok|].
  split; [exact H2|]. by rewrite log_run, H2.
Qed.

Lemma C4_reset_then_log_witness :
  Logger.log "hello"
    (snd (exec_all [CallWarning "w"; CallDisableFileLogging; CallCleanLogs]
            (snd (Logger.reset (example_state (PyLevel LogLevel.Error) true))))) =
  Logger.info "hello"
    (snd (exec_all [CallWarning "w"; CallDisableFileLogging; CallCleanLogs]
            (snd (Logger.reset (example_state (PyLevel LogLevel.Error) true))))).
Proof.
  apply (C4_reset_then_log (example_state (PyLevel LogLevel.Error) true)
           [CallWarning "w"; CallDisableFileLogging; CallCleanLogs] "hello").
  reflexivity.
Defined.

(** C5. For a date [datetime] can hold, [__format_date] returns the day and
    the month as two decimal digits each (a leading zero below ten), a slash
    after each, and the year as its plain decimal numeral, which reads back
    as the year and has no leading zero. 5 March 2024 gives [05/03/2024] and
    25 December 2023 gives [25/12/2023]. *)
Theorem C5_format_date st :
  valid_date (Logger._date (Logger.self st)) = true ->
  let d := Logger._date (Logger.self st) in
  Logger.__format_date st =
    (Ok (two_digits (day d) ++ "/" ++ two_digits (month d) ++ "/"
           ++ py_str (year d)), st) /\
  py_int (py_str (year d)) = Some (year d) /\
  String.get 0 (py_str (year d)) <> Some "0"%char /\
  (d = {| year := 2024; month := 3; day := 5 |} ->
   Logger.__format_date st = (Ok "05/03/2024", st)) /\
  (d = {| year := 2023; month := 12; day := 25 |} ->
   Logger.__format_date st = (Ok "25/12/2023", st)).
Proof.
  intros Hvalid d. unfold valid_date in Hvalid. fold d in Hvalid.
  repeat (apply andb_true_iff in Hvalid as [Hvalid ?]).
  repeat match goal with
         | H : (_ <=? _)%nat = true |- _ => apply Nat.leb_le in H
         end.
  rewrite format_date_run. fold d. unfold date_text.
  rewrite !pad_two_digits by lia.
  split; [reflexivity|]. split; [apply py_int_str|].
  split; [apply py_str_no_leading_zero; lia|].
  split; intros ->; reflexivity.
Qed.

Lemma C5_format_date_witness :
  Logger.__format_date (example_state PyNone false) =
  (Ok "05/03/2024", example_state PyNone false).
Proof.
  apply (C5_format_date (example_state PyNone false)); reflexivity.
Defined.

(** C6 (the code falls short of it). [__strip_format], whose docstring says
    it removes all the escape codes, keeps two-character escape sequences
    whose second character lies outside [@-Z\-_]: [ESC c] (reset to initial
    state) and the pair [ESC 7], [ESC 8] (save and restore the cursor) come
    back unchanged, although [c] is a final byte of the pattern's own last
    class. With mirroring on, [info] of such a message puts the escape
    character in the log file. *)
Theorem C6_strip_keeps_two_byte_sequence :
  in_class cls_final "c" = true /\
  Logger.__strip_format (String ESC "cboot") = String ESC "cboot" /\
  Str.mem ESC (Logger.__strip_format (String ESC "cboot")) = true /\
  Logger.__strip_format (String ESC "7" ++ "x" ++ String ESC "8") =
    String ESC "7" ++ "x" ++ String ESC "8" /\
  Logger.disk
    (snd (Logger.info (String ESC "cboot")
            (example_state (PyLevel LogLevel.Info) true)))
    !! "logs.txt" = Some (String ESC "cboot" ++ nl).
Proof.
  split; [reflexivity|]. split; [by vm_compute|]. split; [by vm_compute|].
  split; by vm_compute.
Qed.

(** C7. [clean_logs] returns normally in both cases: when the log file
    exists it is removed and nothing else changes; when it does not exist the
    whole state, files included, is as before, so no file is created. *)
Theorem C7_clean_logs st :
  let path := Logger._filename (Logger.self st) in
  (forall content,
     Logger.disk st !! path = Some content ->
     Logger.clean_logs st =
       (Ok tt, {| Logger.self := Logger.self st;
                  Logger.stdout := Logger.stdout st;
                  Logger.disk := delete path (Logger.disk st) |}) /\
     Logger.disk (snd (Logger.clean_logs st)) !! path = None) /\
  (Logger.disk st !! path = None ->
   Logger.clean_logs st = (Ok tt, st) /\
   Logger.disk (snd (Logger.clean_logs st)) !! path = None).
Proof.
  intros path. split.
  - intros content _. rewrite clean_logs_run. split; [reflexivity|].
    apply lookup_delete_eq.
  - intros Hnone. rewrite clean_logs_run. fold path. rewrite delete_id by done.
    split; [by destruct st|exact Hnone].
Qed.

Lemma C7_clean_logs_witness :
  Logger.disk
    (snd (Logger.clean_logs
            (snd (Logger.error "boom" (example_state (PyLevel LogLevel.Info) true)))))
    !! "logs.txt" = None /\
  Logger.clean_logs (example_state (PyLevel LogLevel.Info) true) =
  (Ok tt, example_state (PyLevel LogLevel.Info) true).
Proof.
  split.
  - apply (proj1 (C7_clean_logs
                    (snd (Logger.error "boom"
                            (example_state (PyLevel LogLevel.Info) true))))
             ("boom" ++ nl)).
    reflexivity.
  - apply (proj2 (C7_clean_logs (example_state (PyLevel LogLevel.Info) true))).
    reflexivity.
Defined.

(** C8. [set_level] with an object that is not a member of [LogLevel] raises
    [ValueError] (the error the specification calls InvalidSeverity) and
    leaves the whole state, the current level included, as it was; with a
    member it returns normally, the current level is that member, and [log]
    called next is the emit method of that member. *)
Theorem C8_set_level st :
  (forall v,
     (forall l, v <> PyLevel l) ->
     Logger.set_level v st =
       (Raise (ValueError "log_level must be LogLevel.{Info, Warning, Error}"), st)) /\
  (forall l format,
     let st' := snd (Logger.set_level (PyLevel l) st) in
     fst (Logger.set_level (PyLevel l) st) = Ok tt /\
     Logger.log_level (Logger.self st') = PyLevel l /\
     Logger.log format st' = emit_for l format st').
Proof.
  split.
  - intros v Hv. destruct v as [l| | |]; [by destruct (Hv l)|reflexivity..].
  - intros l format st'.
    assert (H : Logger.log_level (Logger.self st') = PyLevel l) by by destruct l.
    split; [by destruct l|]. split; [exact H|]. by rewrite log_run, H.
Qed.

Lemma C8_set_level_witness :
  Logger.set_level (PyStr "verbose") (example_state (PyLevel LogLevel.Warning) false) =
  (Raise (ValueError "log_level must be LogLevel.{Info, Warning, Error}"),
   example_state (PyLevel LogLevel.Warning) false).
Proof.
  apply (proj1 (C8_set_level (example_state (PyLevel LogLevel.Warning) false))).
  intros l. discriminate.
Defined.

(** C9. A logger built with the defaults has mirroring off, and with
    mirroring off [info], [warning], [error] and [log] leave every file as it
    was: none is created and none is written. *)
Theorem C9_no_file_when_mirroring_off :
  (forall now, Logger._log_to_file (Logger.new now) = false) /\
  (forall st format,
     Logger._log_to_file (Logger.self st) = false ->
     Logger.disk (snd (Logger.info format st)) = Logger.disk st /\
     Logger.disk (snd (Logger.warning format st)) = Logger.disk st /\
     Logger.disk (snd (Logger.error format st)) = Logger.disk st /\
     Logger.disk (snd (Logger.log format st)) = Logger.disk st).
Proof.
  split; [reflexivity|].
  intros st format Hoff.
  rewrite log_run, info_run, warning_run, error_run.
  destruct (Logger.log_level (Logger.self st)) as [l| | |];
    rewrite ?emit_for_run; unfold after_emit; cbn [snd Logger.disk];
    rewrite Hoff; by repeat split.
Qed.

Lemma C9_no_file_when_mirroring_off_witness :
  Logger.disk (snd (Logger.log "hello" (example_state (PyLevel LogLevel.Error) false))) =
  Logger.disk (example_state (PyLevel LogLevel.Error) false).
Proof.
  apply (proj2 C9_no_file_when_mirroring_off
           (example_state (PyLevel LogLevel.Error) false) "hello").
  reflexivity.
Defined.

(** C10. [info], [warning], [error] and [log] leave the instance as it was:
    level, mirroring flag, date, file name and style attributes; so does the
    remaining public method [clean_logs]. The methods left over, [set_level],
    [reset] and the two mirroring switches, are the ones that assign an
    attribute. *)
Theorem C10_emit_keeps_instance st format :
  Logger.self (snd (Logger.info format st)) = Logger.self st /\
  Logger.self (snd (Logger.warning format st)) = Logger.self st /\
  Logger.self (snd (Logger.error format st)) = Logger.self st /\
  Logger.self (snd (Logger.log format st)) = Logger.self st /\
  Logger.self (snd (Logger.clean_logs st)) = Logger.self st.
Proof.
  rewrite log_run, info_run, warning_run, error_run, clean_logs_run.
  destruct (Logger.log_level (Logger.self st)) as [l| | |];
    rewrite ?emit_for_run; by repeat split.
Qed.

(** * Further properties of the code *)

(** ** The pattern and [__strip_format] *)

Lemma skip_split ranges s :
  exists p, s = p ++ skip ranges s /\ Str.all (in_class ranges) p = true.
Proof.
  induction s as [|a s (p & Hs & Hp)]; [by exists ""|].
  cbn [skip]. destruct (in_class ranges a) eqn:Ha.
  - exists (String a p). rewrite StrFacts.app_cons, <- Hs. split; [done|].
    cbn [Str.all]. by rewrite Ha, Hp.
  - by exists "".
Qed.

Lemma scan_escape_Fe c rest :
  in_class cls_Fe c = true -> scan_escape (String ESC (String c rest)) = Some rest.
Proof. intros H. unfold scan_escape. by rewrite Ascii.eqb_refl, H. Qed.

Lemma skip_param_inter inter final rest :
  Str.all (in_class cls_inter) inter = true ->
  in_class cls_param final = false ->
  skip cls_param (inter ++ String final rest) = inter ++ String final rest.
Proof.
  intros Hi Hf. destruct inter as [|i inter]; simpl in Hi.
  - change ("" ++ String final rest) with (String final rest). by apply skip_stop.
  - apply andb_true_iff in Hi as [Hi _].
    rewrite StrFacts.app_cons. apply skip_stop. by apply inter_not_param.
Qed.

Lemma scan_escape_CSI params inter final rest :
  Str.all (in_class cls_param) params = true ->
  Str.all (in_class cls_inter) inter = true ->
  in_class cls_final final = true ->
  scan_escape (String ESC (String "[" (params ++ inter ++ String final rest))) =
  Some rest.
Proof.
  intros Hp Hi Hf. unfold scan_escape. rewrite Ascii.eqb_refl.
  replace (in_class cls_Fe "[") with false by reflexivity.
  rewrite Ascii.eqb_refl, (skip_app _ _ _ Hp).
  rewrite skip_param_inter by (done || by apply final_not_param).
  rewrite (skip_app _ _ _ Hi), skip_stop by by apply final_not_inter.
  by rewrite Hf.
Qed.

Lemma render_app_Fe c rest :
  render (EscFe c) ++ rest = String ESC (String c rest).
Proof. reflexivity. Qed.

Lemma render_app_CSI params inter final rest :
  render (EscCSI params inter final) ++ rest =
  String ESC (String "[" (params ++ inter ++ String final rest)).
Proof.
  cbn [render]. by rewrite !StrFacts.app_cons, !StrFacts.app_assoc, StrFacts.app_cons.
Qed.

(** X1. The pattern of [__strip_format], run with backtracking, matches at
    the start of a text exactly when the text starts with a well-formed
    two-character sequence or control sequence, and what it consumes is that
    sequence: never less, never more. *)
Theorem X1_escape_matches_whole_sequences s rest :
  re_match escape s = Some rest <->
  exists g, is_escape g = true /\ s = render g ++ rest.
Proof.
  rewrite re_match_escape. split.
  - unfold scan_escape. destruct s as [|a [|b s2]]; try discriminate.
    destruct (Ascii.eqb a ESC) eqn:Ha; [|discriminate].
    apply Ascii.eqb_eq in Ha as ->.
    destruct (in_class cls_Fe b) eqn:Hb.
    { intros [= <-]. exists (EscFe b). split; [exact Hb|reflexivity]. }
    destruct (Ascii.eqb b "[") eqn:Hbr; [|discriminate].
    apply Ascii.eqb_eq in Hbr as ->.
    destruct (skip_split cls_param s2) as (p & Hs2 & Hp).
    destruct (skip_split cls_inter (skip cls_param s2)) as (i & Hs3 & Hi).
    destruct (skip cls_inter (skip cls_param s2)) as [|f s5]; [discriminate|].
    destruct (in_class cls_final f) eqn:Hf; [|discriminate].
    intros [= <-]. exists (EscCSI p i f). split.
    + cbn [is_escape segment_ok]. by rewrite Hp, Hi, Hf.
    + rewrite render_app_CSI. by rewrite <- Hs3, <- Hs2.
  - intros ([t|c|p i f] & Hg & ->); cbn [is_escape segment_ok] in Hg; [discriminate| |].
    + rewrite render_app_Fe. by apply scan_escape_Fe.
    + apply andb_true_iff in Hg as [[Hp Hi]%andb_true_iff Hf].
      rewrite render_app_CSI. by apply scan_escape_CSI.
Qed.



Lemma strip_keep_escape s :
  scan_escape (String ESC s) = None ->
  Logger.__strip_format (String ESC s) = String ESC (Logger.__strip_format s).
Proof. intros H. by rewrite strip_cons, H. Qed.

Lemma all_class_no_escape ranges p :
  in_class ranges ESC = false ->
  Str.all (in_class ranges) p = true -> Str.mem ESC p = false.
Proof.
  intros Hesc. induction p as [|a p IH]; [done|].
  cbn [Str.all Str.mem]. intros [Ha Hp]%andb_true_iff.
  rewrite IH by done. rewrite orb_false_r.
  destruct (Ascii.eqb a ESC) eqn:E; [|done].
  apply Ascii.eqb_eq in E as ->. congruence.
Qed.

(** X3. What is not a sequence of the pattern stays in the text. An escape
    character followed by a character outside [@-Z\-_] other than the opening
    bracket (as in the private sequences [ESC 7] and [ESC c]) is kept, a
    trailing escape character is kept, and a control sequence cut short
    before its final byte is kept whole, bracket and parameters included. *)
Theorem X3_strip_keeps_other_escapes :
  (forall c s,
     in_class cls_Fe c = false -> c <> "["%char ->
     Logger.__strip_format (String ESC (String c s)) =
     String ESC (Logger.__strip_format (String c s))) /\
  Logger.__strip_format (String ESC "") = String ESC "" /\
  (forall params inter rest,
     Str.all (in_class cls_param) params = true ->
     Str.all (in_class cls_inter) inter = true ->
     cut_short rest = true ->
     Logger.__strip_format (String ESC (String "[" (params ++ inter ++ rest))) =
     String ESC (String "[" (params ++ inter ++ Logger.__strip_format rest))).
Proof.
  split; [|split; [reflexivity|]].
  - intros c s Hc Hbr. apply strip_keep_escape.
    unfold scan_escape. rewrite Ascii.eqb_refl, Hc.
    apply Ascii.eqb_neq in Hbr. by rewrite Hbr.
  - intros params inter rest Hp Hi Hrest.
    assert (Hnone : scan_escape (String ESC (String "[" (params ++ inter ++ rest))) = None).
    { unfold scan_escape. rewrite Ascii.eqb_refl.
      replace (in_class cls_Fe "[") with false by reflexivity.
      rewrite Ascii.eqb_refl, (skip_app _ _ _ Hp).
      destruct rest as [|c rest].
      - rewrite StrFacts.app_nil_r.
        destruct (skip_split cls_param inter) as (p' & Hsplit & Hp').
        assert (Hskip : skip cls_param inter = inter).
        { destruct inter as [|i inter]; [done|]. simpl in Hi.
          apply andb_true_iff in Hi as [Hi _]. apply skip_stop.
          by apply inter_not_param. }
        rewrite Hskip. rewrite <- (StrFacts.app_nil_r inter) at 1.
        by rewrite (skip_app _ _ _ Hi).
      - cbn [cut_short] in Hrest. apply negb_true_iff in Hrest.
        apply orb_false_iff in Hrest as [[Hcp Hci]%orb_false_iff Hcf].
        rewrite skip_param_inter by done.
        rewrite (skip_app _ _ _ Hi), skip_stop by done. by rewrite Hcf. }
    rewrite strip_keep_escape by done.
    change (String "[" (params ++ inter ++ rest)) with ("[" ++ params ++ inter ++ rest).
    change (String "[" (params ++ inter ++ Logger.__strip_format rest))
      with ("[" ++ params ++ inter ++ Logger.__strip_format rest).
    rewrite <- !StrFacts.app_assoc. rewrite strip_text; [done|].
    rewrite !StrFacts.mem_app.
    rewrite (all_class_no_escape cls_param params eq_refl Hp).
    by rewrite (all_class_no_escape cls_inter inter eq_refl Hi).
Qed.

Lemma X3_strip_keeps_other_escapes_witness :
  Logger.__strip_format (String ESC (String "7" "saved")) =
  String ESC (Logger.__strip_format (String "7" "saved")) /\
  Logger.__strip_format (String ESC (String "[" ("1;3" ++ " " ++ nl))) =
  String ESC (String "[" ("1;3" ++ " " ++ Logger.__strip_format nl)).
Proof.
  split.
  - apply (proj1 X3_strip_keeps_other_escapes); [reflexivity|discriminate].
  - apply (proj2 (proj2 X3_strip_keeps_other_escapes)); reflexivity.
Defined.

(** X4. [__strip_format] makes one pass and does not look at its own result:
    removing a sequence can bring an escape character next to the character
    that completes it. For two characters [c1], [c2] of [@-Z\-_] and a text
    [t] without the escape character, stripping [ESC ESC c1 c2 t] leaves
    [ESC c2 t], and stripping that again leaves [t]. *)
Theorem X4_strip_is_one_pass c1 c2 t :
  in_class cls_Fe c1 = true ->
  in_class cls_Fe c2 = true ->
  Str.mem ESC t = false ->
  Logger.__strip_format (String ESC (String ESC (String c1 (String c2 t)))) =
    String ESC (String c2 t) /\
  Logger.__strip_format
    (Logger.__strip_format (String ESC (String ESC (String c1 (String c2 t))))) = t /\
  Logger.__strip_format
    (Logger.__strip_format (String ESC (String ESC (String c1 (String c2 t))))) <>
  Logger.__strip_format (String ESC (String ESC (String c1 (String c2 t)))).
Proof.
  intros H1 H2 Ht.
  assert (Hc2 : Ascii.eqb c2 ESC = false).
  { destruct (Ascii.eqb c2 ESC) eqn:E; [|done].
    apply Ascii.eqb_eq in E as ->. discriminate. }
  assert (Hfirst : Logger.__strip_format
                     (String ESC (String ESC (String c1 (String c2 t)))) =
                   String ESC (String c2 t)).
  { rewrite strip_keep_escape by reflexivity.
    rewrite strip_Fe by done.
    rewrite strip_cons, scan_escape_other by done.
    by rewrite strip_plain. }
  rewrite Hfirst. split; [done|].
  assert (Hsecond : Logger.__strip_format (String ESC (String c2 t)) = t).
  { rewrite strip_Fe by done. by apply strip_plain. }
  rewrite Hsecond. split; [done|].
  intros E. apply (f_equal String.length) in E. simpl in E. lia.
Qed.

Lemma X4_strip_is_one_pass_witness :
  Logger.__strip_format
    (Logger.__strip_format (String ESC (String ESC (String "M" (String "D" "x"))))) =
  "x".
Proof.
  apply (X4_strip_is_one_pass "M" "D" "x"); reflexivity.
Defined.

(** ** The level *)

Lemma not_member_not_in v :
  (forall l, v <> PyLevel l) ->
  py_in v [PyLevel LogLevel.Info; PyLevel LogLevel.Warning; PyLevel LogLevel.Error]
  = false.
Proof. intros Hv. destruct v as [l| | |]; [by destruct (Hv l)|reflexivity..]. Qed.

(** X5. The constructor takes any object as the level without checking it,
    where [set_level] would raise; and on an instance whose level is not a
    member of [LogLevel], [log] returns normally and does nothing: no line
    on the console, no write to the file, no change of the instance. *)
Theorem X5_log_with_unknown_level v log_to_file now out files format :
  (forall l, v <> PyLevel l) ->
  let st := {| Logger.self := Logger.__init__ v log_to_file now;
               Logger.stdout := out;
               Logger.disk := files |} in
  Logger.log_level (Logger.self st) = v /\
  Logger.log format st = (Ok tt, st) /\
  fst (Logger.set_level v st) =
    Raise (ValueError "log_level must be LogLevel.{Info, Warning, Error}").
Proof.
  intros Hv st. split; [reflexivity|]. split.
  - rewrite log_run. cbn [Logger.self Logger.log_level Logger.__init__ st].
    destruct v as [l| | |]; [by destruct (Hv l)|reflexivity..].
  - unfold Logger.set_level. by rewrite not_member_not_in.
Qed.

Lemma X5_log_with_unknown_level_witness :
  Logger.log "lost" (example_state (PyInt 2) true) =
  (Ok tt, example_state (PyInt 2) true).
Proof.
  apply (X5_log_with_unknown_level (PyInt 2) true
           {| year := 2024; month := 3; day := 5 |} "" ∅ "lost").
  intros l. discriminate.
Defined.

(** X6. [__log_level_to_string] never changes the state and always returns
    one of the three names. Given a member it names that member, whatever the
    current level is; given [None] it answers as for the current level; and
    for anything that is not a member, whether passed or found as the current
    level, the name is [info]. *)
Theorem X6_log_level_to_string st :
  (forall l, Logger.__log_level_to_string (PyLevel l) st = (Ok (label l), st)) /\
  Logger.__log_level_to_string PyNone st =
    Logger.__log_level_to_string (Logger.log_level (Logger.self st)) st /\
  (forall v, (forall l, v <> PyLevel l) ->
     (v <> PyNone \/ forall l, Logger.log_level (Logger.self st) <> PyLevel l) ->
     Logger.__log_level_to_string v st = (Ok "info", st)) /\
  (forall v, exists l, Logger.__log_level_to_string v st = (Ok (label l), st)).
Proof.
  assert (Hcur : Logger.__log_level_to_string PyNone st =
                 Logger.__log_level_to_string (Logger.log_level (Logger.self st)) st).
  { unfold Logger.__log_level_to_string, Logger.bind, Logger.get_self.
    cbn [is_none]. by destruct (Logger.log_level (Logger.self st)). }
  assert (Hother : forall v, (forall l, v <> PyLevel l) -> v <> PyNone ->
                     Logger.__log_level_to_string v st = (Ok "info", st)).
  { intros v Hv Hnone. destruct v as [l| | |]; [by destruct (Hv l)|done|done..]. }
  split; [by intros []|]. split; [exact Hcur|]. split.
  - intros v Hv [Hnone|Hst]; [by apply Hother|].
    destruct v as [l| | |]; [by destruct (Hv l)| |done..].
    rewrite Hcur.
    destruct (Logger.log_level (Logger.self st)) as [l| | |] eqn:E;
      [by destruct (Hst l)|..].
    + unfold Logger.__log_level_to_string, Logger.bind, Logger.get_self.
      cbn [is_none]. by rewrite E.
    + by apply Hother.
    + by apply Hother.
  - intros v. destruct v as [l| | |].
    + exists l. by destruct l.
    + rewrite Hcur.
      destruct (Logger.log_level (Logger.self st)) as [l| | |] eqn:E.
      * exists l. by destruct l.
      * exists LogLevel.Info.
        unfold Logger.__log_level_to_string, Logger.bind, Logger.get_self.
        cbn [is_none]. by rewrite E.
      * by exists LogLevel.Info.
      * by exists LogLevel.Info.
    + by exists LogLevel.Info.
    + by exists LogLevel.Info.
Qed.

Lemma X6_log_level_to_string_witness :
  Logger.__log_level_to_string (PyStr "debug")
    (example_state (PyLevel LogLevel.Error) false) =
  (Ok "info", example_state (PyLevel LogLevel.Error) false).
Proof.
  apply (proj1 (proj2 (proj2 (X6_log_level_to_string
                                (example_state (PyLevel LogLevel.Error) false))))).
  - intros l. discriminate.
  - left. discriminate.
Defined.

Lemma set_level_run v st :
  Logger.set_level v st =
  if py_in v [PyLevel LogLevel.Info; PyLevel LogLevel.Warning; PyLevel LogLevel.Error]
  then (Ok tt,
        {| Logger.self :=
             {| Logger.log_level := v;
                Logger._log_to_file := Logger._log_to_file (Logger.self st);
                Logger._date := Logger._date (Logger.self st);
                Logger._filename := Logger._filename (Logger.self st);
                Logger.RESET := Logger.RESET (Logger.self st);
                Logger.RED := Logger.RED (Logger.self st);
                Logger.BLUE := Logger.BLUE (Logger.self st);
                Logger.YELLOW := Logger.YELLOW (Logger.self st);
                Logger.BOLD := Logger.BOLD (Logger.self st) |};
           Logger.stdout := Logger.stdout st;
           Logger.disk := Logger.disk st |})
  else (Raise (ValueError "log_level must be LogLevel.{Info, Warning, Error}"), st).
Proof. unfold Logger.set_level. by destruct (py_in _ _). Qed.

Lemma py_in_member v :
  py_in v [PyLevel LogLevel.Info; PyLevel LogLevel.Warning; PyLevel LogLevel.Error]
  = true -> exists l, v = PyLevel l.
Proof. destruct v as [l| | |]; [by exists l|discriminate..]. Qed.


(** ** Programs of calls *)

Lemma state_eta st :
  {| Logger.self := Logger.self st;
     Logger.stdout := Logger.stdout st;
     Logger.disk := Logger.disk st |} = st.
Proof. by destruct st. Qed.

Lemma exec_all_cons c cs st :
  exec_all (c :: cs) st =
  match exec c st with
  | (Ok _, st1) => exec_all cs st1
  | (Raise e, st1) => (Raise e, st1)
  end.
Proof. reflexivity. Qed.

(** The three shapes of a call: an emit, an assignment to an attribute (or
    nothing at all), and the removal of the log file. *)
Lemma exec_shape c st :
  (exists color lab msg,
     may_print c = true /\ exec c st = (Ok tt, after_emit st color lab msg)) \/
  (exists r s',
     is_clean c = false /\
     exec c st = (r, {| Logger.self := s';
                        Logger.stdout := Logger.stdout st;
                        Logger.disk := Logger.disk st |})) \/
  (c = CallCleanLogs /\
   exec c st =
   (Ok tt, {| Logger.self := Logger.self st;
              Logger.stdout := Logger.stdout st;
              Logger.disk := delete (Logger._filename (Logger.self st))
                               (Logger.disk st) |})).
Proof.
  destruct c as [|m|m|m|m|v| | |]; cbn [exec].
  - right; left. by eexists _, _.
  - rewrite log_run.
    destruct (Logger.log_level (Logger.self st)) as [l| | |];
      [left; rewrite emit_for_run; by eexists _, _, _|..];
      right; left; exists (Ok tt), (Logger.self st); by rewrite state_eta.
  - left. rewrite info_run. by eexists _, _, _.
  - left. rewrite warning_run. by eexists _, _, _.
  - left. rewrite error_run. by eexists _, _, _.
  - right; left. rewrite set_level_run. destruct (py_in v _).
    + by eexists _, _.
    + exists (Raise (ValueError "log_level must be LogLevel.{Info, Warning, Error}")),
        (Logger.self st). by rewrite state_eta.
  - right; left. by eexists _, _.
  - right; left. by eexists _, _.
  - right; right. by rewrite clean_logs_run.
Qed.

Lemma exec_all_constants cs st :
  let s := Logger.self st in
  let s' := Logger.self (snd (exec_all cs st)) in
  Logger._date s' = Logger._date s /\ Logger._filename s' = Logger._filename s /\
  Logger.RESET s' = Logger.RESET s /\ Logger.RED s' = Logger.RED s /\
  Logger.BLUE s' = Logger.BLUE s /\ Logger.YELLOW s' = Logger.YELLOW s /\
  Logger.BOLD s' = Logger.BOLD s.
Proof.
  revert st. induction cs as [|c cs IH]; intros st; [by repeat split|].
  rewrite exec_all_cons.
  pose proof (exec_self c st) as (H1 & H2 & H3 & H4 & H5 & H6 & H7 & _).
  destruct (exec c st) as [[[]|e] st1]; cbn [snd] in *.
  - specialize (IH st1) as (I1 & I2 & I3 & I4 & I5 & I6 & I7). cbn zeta in *.
    repeat split; congruence.
  - cbn zeta. by repeat split.
Qed.

(** X8. The captured date, the name of the log file and the five style
    codes are fixed for the life of an instance: after any program of public
    method calls, with any arguments and whether or not one of them raises,
    they are what they were before. *)
Theorem X8_constants_never_change cs st :
  Logger._date (Logger.self (snd (exec_all cs st))) = Logger._date (Logger.self st) /\
  Logger._filename (Logger.self (snd (exec_all cs st))) =
    Logger._filename (Logger.self st) /\
  Logger.RESET (Logger.self (snd (exec_all cs st))) = Logger.RESET (Logger.self st) /\
  Logger.RED (Logger.self (snd (exec_all cs st))) = Logger.RED (Logger.self st) /\
  Logger.BLUE (Logger.self (snd (exec_all cs st))) = Logger.BLUE (Logger.self st) /\
  Logger.YELLOW (Logger.self (snd (exec_all cs st))) = Logger.YELLOW (Logger.self st) /\
  Logger.BOLD (Logger.self (snd (exec_all cs st))) = Logger.BOLD (Logger.self st).
Proof. apply exec_all_constants. Qed.

(** One call that is not [clean_logs] keeps what the log file holds and may
    add to its end. *)
Lemma exec_appends c st content :
  is_clean c = false ->
  Logger.disk st !! Logger._filename (Logger.self st) = Some content ->
  exists more,
    Logger.disk (snd (exec c st)) !! Logger._filename (Logger.self st) =
    Some (content ++ more).
Proof.
  intros Hc Hfile.
  destruct (exec_shape c st) as
    [(color & lab & msg & _ & ->)|[(r & s' & _ & ->)|(-> & _)]];
    [| |discriminate]; cbn [snd Logger.disk after_emit].
  - destruct (Logger._log_to_file (Logger.self st)).
    + eexists. rewrite lookup_insert_eq, Hfile. reflexivity.
    + exists "". by rewrite StrFacts.app_nil_r.
  - exists "". by rewrite StrFacts.app_nil_r.
Qed.

(** X9. The log file is append-only for every method but [clean_logs]: after
    any program of calls without [clean_logs], what the file held before is
    still there, at the start of what it holds now. *)
Theorem X9_log_file_is_append_only cs st content :
  forallb (fun c => negb (is_clean c)) cs = true ->
  Logger.disk st !! Logger._filename (Logger.self st) = Some content ->
  exists more,
    Logger.disk (snd (exec_all cs st)) !! Logger._filename (Logger.self st) =
    Some (content ++ more).
Proof.
  revert st content. induction cs as [|c cs IH]; intros st content Hcs Hfile.
  { exists "". by rewrite StrFacts.app_nil_r. }
  cbn [forallb] in Hcs. apply andb_true_iff in Hcs as [Hc%negb_true_iff Hcs].
  rewrite exec_all_cons.
  destruct (exec_appends c st content Hc Hfile) as (more1 & H1).
  pose proof (exec_self c st) as (_ & Hname & _).
  destruct (exec c st) as [[[]|e] st1]; cbn [snd] in *.
  - rewrite <- Hname in H1.
    destruct (IH st1 (content ++ more1) Hcs H1) as (more2 & H2).
    exists (more1 ++ more2). by rewrite <- StrFacts.app_assoc, <- Hname.
  - by exists more1.
Qed.

Lemma X9_log_file_is_append_only_witness :
  exists more,
    Logger.disk
      (snd (exec_all [CallDisableFileLogging; CallInfo "b"; CallSetLevel PyNone]
              (snd (Logger.error "a" (example_state (PyLevel LogLevel.Info) true)))))
      !! "logs.txt" = Some (("a" ++ nl) ++ more).
Proof.
  apply (X9_log_file_is_append_only
           [CallDisableFileLogging; CallInfo "b"; CallSetLevel PyNone]
           (snd (Logger.error "a" (example_state (PyLevel LogLevel.Info) true)))
           ("a" ++ nl)); reflexivity.
Defined.

(** X10. While mirroring is on, a run of emit calls adds to the log file one
    stripped message and a newline per call, in the order of the calls: after
    [error a] and [error b] the file ends in the line of [a] and then the
    line of [b]. The run returns normally. *)
Theorem X10_emits_append_in_order ms st :
  Logger._log_to_file (Logger.self st) = true ->
  ms <> [] ->
  let path := Logger._filename (Logger.self st) in
  let calls := List.map (fun lm => emit_call (fst lm) (snd lm)) ms in
  fst (exec_all calls st) = Ok tt /\
  Logger.disk (snd (exec_all calls st)) !! path =
    Some (default "" (Logger.disk st !! path) ++ mirrored ms).
Proof.
  intros Hon Hms path calls. subst path calls.
  assert (Hgen : forall ms st,
            Logger._log_to_file (Logger.self st) = true ->
            fst (exec_all (List.map (fun lm => emit_call (fst lm) (snd lm)) ms) st) = Ok tt /\
            default "" (Logger.disk
                          (snd (exec_all
                                  (List.map (fun lm => emit_call (fst lm) (snd lm)) ms) st))
                        !! Logger._filename (Logger.self st)) =
            default "" (Logger.disk st !! Logger._filename (Logger.self st))
              ++ mirrored ms /\
            (ms <> [] ->
             is_Some (Logger.disk
                        (snd (exec_all
                                (List.map (fun lm => emit_call (fst lm) (snd lm)) ms) st))
                      !! Logger._filename (Logger.self st)))).
  { clear. intros ms. induction ms as [|[l m] ms IH]; intros st Hon.
    - cbn. by rewrite StrFacts.app_nil_r.
    - cbn [List.map fst snd]. rewrite exec_all_cons.
      assert (Hrun : exec (emit_call l m) st = emit_for l m st) by by destruct l.
      rewrite Hrun, emit_for_run.
      set (st1 := after_emit st _ _ m).
      assert (Hself : Logger.self st1 = Logger.self st) by reflexivity.
      assert (Hdisk : Logger.disk st1 !! Logger._filename (Logger.self st) =
                      Some (default "" (Logger.disk st !! Logger._filename (Logger.self st))
                              ++ Logger.__strip_format m ++ nl)).
      { unfold st1, after_emit. cbn [Logger.disk]. rewrite Hon.
        apply lookup_insert_eq. }
      destruct (IH st1) as (Hok & Hdef & Hsome); [by rewrite Hself|].
      rewrite Hself in Hdef, Hsome. split; [exact Hok|]. split.
      + rewrite Hdef, Hdisk. cbn [from_option mirrored]. unfold id.
        by rewrite !StrFacts.app_assoc.
      + intros _. destruct ms as [|lm ms]; [|by apply Hsome].
        cbn [List.map exec_all Logger.ret snd]. by rewrite Hdisk. }
  destruct (Hgen ms st Hon) as (Hok & Hdef & Hsome).
  split; [exact Hok|].
  destruct (Hsome Hms) as [x Hx]. rewrite Hx in Hdef |- *.
  cbn [from_option] in Hdef. unfold id in Hdef. by rewrite Hdef.
Qed.

Lemma X10_emits_append_in_order_witness :
  Logger.disk
    (snd (exec_all
            (List.map (fun lm => emit_call (fst lm) (snd lm))
               [(LogLevel.Error, "a"); (LogLevel.Error, "b")])
            (example_state (PyLevel LogLevel.Info) true)))
    !! "logs.txt" =
  Some (default "" (Logger.disk (example_state (PyLevel LogLevel.Info) true)
                      !! "logs.txt")
          ++ mirrored [(LogLevel.Error, "a"); (LogLevel.Error, "b")]).
Proof.
  apply (X10_emits_append_in_order
           [(LogLevel.Error, "a"); (LogLevel.Error, "b")]
           (example_state (PyLevel LogLevel.Info) true)); [reflexivity|discriminate].
Defined.

Lemma exec_frame c st path :
  path <> Logger._filename (Logger.self st) ->
  Logger.disk (snd (exec c st)) !! path = Logger.disk st !! path.
Proof.
  intros Hpath.
  destruct (exec_shape c st) as
    [(color & lab & msg & _ & ->)|[(r & s' & _ & ->)|(_ & ->)]];
    cbn [snd Logger.disk after_emit].
  - destruct (Logger._log_to_file (Logger.self st)); [|done].
    by rewrite lookup_insert_ne.
  - done.
  - by rewrite lookup_delete_ne.
Qed.

(** X11. No method reads or writes a file other than the log file: after any
    program of public method calls, every other path holds what it held
    before, or is still absent. *)
Theorem X11_other_files_untouched cs st path :
  path <> Logger._filename (Logger.self st) ->
  Logger.disk (snd (exec_all cs st)) !! path = Logger.disk st !! path.
Proof.
  revert st. induction cs as [|c cs IH]; intros st Hpath; [done|].
  rewrite exec_all_cons.
  pose proof (exec_frame c st path Hpath) as Hstep.
  pose proof (exec_self c st) as (_ & Hname & _).
  destruct (exec c st) as [[[]|e] st1]; cbn [snd] in *; [|done].
  rewrite IH by by rewrite Hname. done.
Qed.

Lemma X11_other_files_untouched_witness :
  Logger.disk
    (snd (exec_all [CallEnableFileLogging; CallError "a"; CallCleanLogs; CallLog "b"]
            example_with_notes))
    !! "notes.txt" = Logger.disk example_with_notes !! "notes.txt".
Proof.
  apply (X11_other_files_untouched
           [CallEnableFileLogging; CallError "a"; CallCleanLogs; CallLog "b"]
           example_with_notes "notes.txt").
  discriminate.
Defined.

Lemma exec_stdout c st :
  exists more,
    Logger.stdout (snd (exec c st)) = Logger.stdout st ++ more /\
    (may_print c = false -> more = "").
Proof.
  destruct (exec_shape c st) as
    [(color & lab & msg & Hp & ->)|[(r & s' & _ & ->)|(_ & ->)]];
    cbn [snd Logger.stdout after_emit].
  - eexists. split; [reflexivity|]. intros H. congruence.
  - exists "". by rewrite StrFacts.app_nil_r.
  - exists "". by rewrite StrFacts.app_nil_r.
Qed.

(** X12. Nothing printed is ever taken back: after any program of public
    method calls the console text starts with what it was before. And only
    the emit methods and [log] print: a program of [reset], [set_level], the
    two mirroring switches and [clean_logs] leaves the console as it was,
    also when [set_level] raises. *)
Theorem X12_console_only_grows cs st :
  exists more,
    Logger.stdout (snd (exec_all cs st)) = Logger.stdout st ++ more /\
    (forallb (fun c => negb (may_print c)) cs = true -> more = "").
Proof.
  revert st. induction cs as [|c cs IH]; intros st.
  { exists "". by rewrite StrFacts.app_nil_r. }
  rewrite exec_all_cons.
  destruct (exec_stdout c st) as (more1 & H1 & Hq1).
  destruct (exec c st) as [[[]|e] st1]; cbn [snd] in *.
  - destruct (IH st1) as (more2 & H2 & Hq2).
    exists (more1 ++ more2). split.
    + by rewrite H2, H1, StrFacts.app_assoc.
    + cbn [forallb]. intros [Hc%negb_true_iff Hcs]%andb_true_iff.
      by rewrite Hq1, Hq2.
  - exists more1. split; [done|].
    cbn [forallb]. intros [Hc%negb_true_iff _]%andb_true_iff. by apply Hq1.
Qed.

Lemma X12_console_only_grows_witness :
  exists more,
    Logger.stdout
      (snd (exec_all
              [CallSetLevel (PyLevel LogLevel.Error); CallEnableFileLogging;
               CallSetLevel PyNone; CallCleanLogs]
              (snd (Logger.info "a" (example_state PyNone false))))) =
    Logger.stdout (snd (Logger.info "a" (example_state PyNone false))) ++ more /\
    more = "".
Proof.
  destruct (X12_console_only_grows
              [CallSetLevel (PyLevel LogLevel.Error); CallEnableFileLogging;
               CallSetLevel PyNone; CallCleanLogs]
              (snd (Logger.info "a" (example_state PyNone false))))
    as (more & Hout & Hquiet).
  exists more. split; [exact Hout|]. apply Hquiet. reflexivity.
Defined.

(** ** The switches *)


(** X14. Of two assignments of the level the last one wins: [set_level]
    after [set_level] or [reset] after [set_level] gives the state the second
    call alone would give. [reset] is [set_level] with [LogLevel.Info], and
    setting the level the instance already has changes nothing. *)
Theorem X14_level_last_wins st l1 l2 :
  snd (Logger.set_level (PyLevel l2) (snd (Logger.set_level (PyLevel l1) st))) =
    snd (Logger.set_level (PyLevel l2) st) /\
  snd (Logger.reset (snd (Logger.set_level (PyLevel l1) st))) = snd (Logger.reset st) /\
  Logger.reset st = Logger.set_level (PyLevel LogLevel.Info) st /\
  (Logger.log_level (Logger.self st) = PyLevel l1 ->
   Logger.set_level (PyLevel l1) st = (Ok tt, st)).
Proof.
  split; [by destruct l1, l2|]. split; [by destruct l1|]. split; [done|].
  intros H. rewrite set_level_run.
  replace (py_in (PyLevel l1) _) with true by by destruct l1.
  destruct st as [[] ? ?]. cbn in *. by subst.
Qed.

Lemma X14_level_last_wins_witness :
  Logger.set_level (PyLevel LogLevel.Warning)
    (example_state (PyLevel LogLevel.Warning) true) =
  (Ok tt, example_state (PyLevel LogLevel.Warning) true).
Proof.
  apply (X14_level_last_wins (example_state (PyLevel LogLevel.Warning) true)
           LogLevel.Warning LogLevel.Info).
  reflexivity.
Defined.

(** ** The log file *)

(** X15. [clean_logs] starts the log over: with mirroring on, the emit that
    follows it creates the file again, holding the stripped message and a
    newline and nothing of what was there before. Calling [clean_logs] twice
    is calling it once, and an emit followed by [clean_logs] leaves no log
    file. *)
Theorem X15_clean_logs_starts_over st l format :
  Logger._log_to_file (Logger.self st) = true ->
  let path := Logger._filename (Logger.self st) in
  Logger.disk (snd (emit_for l format (snd (Logger.clean_logs st)))) !! path =
    Some (Logger.__strip_format format ++ nl) /\
  Logger.clean_logs (snd (Logger.clean_logs st)) = (Ok tt, snd (Logger.clean_logs st)) /\
  Logger.disk (snd (Logger.clean_logs (snd (emit_for l format st)))) !! path = None.
Proof.
  intros Hon path. subst path. split; [|split].
  - rewrite clean_logs_run, emit_for_run. unfold after_emit.
    cbn [snd Logger.self Logger.disk]. rewrite Hon.
    by rewrite lookup_insert_eq, lookup_delete_eq.
  - rewrite !clean_logs_run. cbn [snd Logger.self Logger.stdout Logger.disk].
    rewrite (delete_id (delete _ _)) by apply lookup_delete_eq. done.
  - rewrite emit_for_run, clean_logs_run. cbn [snd Logger.self Logger.disk after_emit].
    apply lookup_delete_eq.
Qed.

Lemma X15_clean_logs_starts_over_witness :
  Logger.disk
    (snd (emit_for LogLevel.Info "new"
            (snd (Logger.clean_logs
                    (snd (Logger.error "old"
                            (example_state (PyLevel LogLevel.Info) true)))))))
    !! "logs.txt" = Some (Logger.__strip_format "new" ++ nl).
Proof.
  apply (X15_clean_logs_starts_over
           (snd (Logger.error "old" (example_state (PyLevel LogLevel.Info) true)))
           LogLevel.Info "new").
  reflexivity.
Defined.

(** ** The date *)

Lemma two_digits_app n s :
  two_digits n ++ s =
  String (ascii_of_nat (48 + n / 10)) (String (ascii_of_nat (48 + n mod 10)) s).
Proof. reflexivity. Qed.

Lemma two_digits_inj n m s t :
  n < 100 -> m < 100 ->
  two_digits n ++ s = two_digits m ++ t -> n = m /\ s = t.
Proof.
  intros Hn Hm. rewrite !two_digits_app.
  assert (Hdn : n / 10 < 10) by (apply Nat.Div0.div_lt_upper_bound; lia).
  assert (Hdm : m / 10 < 10) by (apply Nat.Div0.div_lt_upper_bound; lia).
  assert (Hmn : n mod 10 < 10) by (apply Nat.mod_upper_bound; lia).
  assert (Hmm : m mod 10 < 10) by (apply Nat.mod_upper_bound; lia).
  pose proof (Nat.div_mod_eq n 10) as En. pose proof (Nat.div_mod_eq m 10) as Em.
  remember (n / 10) as qn. remember (n mod 10) as rn.
  remember (m / 10) as qm. remember (m mod 10) as rm.
  remember (48 + qn) as a1. remember (48 + rn) as a2.
  remember (48 + qm) as b1. remember (48 + rm) as b2.
  intros [= H1 H2 ->].
  apply (f_equal nat_of_ascii) in H1, H2.
  rewrite !nat_ascii_embedding in H1 by lia.
  rewrite !nat_ascii_embedding in H2 by lia.
  split; [lia|done].
Qed.

(** X16. The text of [__format_date] determines the date: two dates in the
    ranges of [datetime] that are formatted alike are the same day, month and
    year. *)
Theorem X16_format_date_injective st1 st2 text :
  valid_date (Logger._date (Logger.self st1)) = true ->
  valid_date (Logger._date (Logger.self st2)) = true ->
  fst (Logger.__format_date st1) = Ok text ->
  fst (Logger.__format_date st2) = Ok text ->
  Logger._date (Logger.self st1) = Logger._date (Logger.self st2).
Proof.
  rewrite !format_date_run. cbn [fst].
  destruct (Logger._date (Logger.self st1)) as [y1 m1 d1].
  destruct (Logger._date (Logger.self st2)) as [y2 m2 d2].
  unfold valid_date, date_text. cbn [year month day].
  intros Hv1 Hv2 H1 H2.
  assert (Heq : pad d1 ++ "/" ++ pad m1 ++ "/" ++ py_str y1 =
                pad d2 ++ "/" ++ pad m2 ++ "/" ++ py_str y2) by congruence.
  clear H1 H2.
  repeat (apply andb_true_iff in Hv1 as [Hv1 ?]).
  repeat (apply andb_true_iff in Hv2 as [Hv2 ?]).
  repeat match goal with
         | H : (_ <=? _)%nat = true |- _ => apply Nat.leb_le in H
         end.
  rewrite !pad_two_digits in Heq by lia.
  apply two_digits_inj in Heq as [-> Heq]; [|lia..].
  apply (inj (String.app "/")) in Heq.
  apply two_digits_inj in Heq as [-> Heq]; [|lia..].
  apply (inj (String.app "/")) in Heq.
  assert (Hy : Some y1 = Some y2) by by rewrite <- !py_int_str, Heq.
  by injection Hy as ->.
Qed.

Lemma X16_format_date_injective_witness :
  Logger._date (Logger.self (example_state PyNone true)) =
  Logger._date (Logger.self (example_state (PyLevel LogLevel.Error) false)).
Proof.
  apply (X16_format_date_injective (example_state PyNone true)
           (example_state (PyLevel LogLevel.Error) false) "05/03/2024");
    reflexivity.
Defined.

(** ** Console line and file line *)




(** ** A text given by its pieces *)

Lemma plain_all_no_escape gs :
  forallb segment_ok gs = true -> Str.mem ESC (plain_all gs) = false.
Proof.
  induction gs as [|g gs IH]; [done|].
  cbn [forallb plain_all]. intros [Hg Hgs]%andb_true_iff.
  rewrite StrFacts.mem_app, IH by done.
  destruct g as [t|c|params inter final]; cbn [plain segment_ok] in *; [|done..].
  apply negb_true_iff in Hg. by rewrite Hg.
Qed.

(** X18. For the sequences the pattern does cover, number and order do not
    matter and the text around them is not touched: when a text is cut into
    plain pieces without the escape character, two-character sequences
    [ESC c] with [c] in [@-Z\-_] and control sequences
    [ESC [ params intermediates final], [__strip_format] returns the plain
    pieces, unchanged and in order, and no escape character is left. *)
Theorem X18_strip_by_pieces gs :
  forallb segment_ok gs = true ->
  Logger.__strip_format (render_all gs) = plain_all gs /\
  Str.mem ESC (Logger.__strip_format (render_all gs)) = false.
Proof.
  intros H. rewrite strip_segments by done.
  split; [reflexivity|by apply plain_all_no_escape].
Qed.

Lemma X18_strip_by_pieces_witness :
  Logger.__strip_format
    (render_all [Text "ab"; EscCSI "1;31" " " "m"; EscFe "M"; Text "cd";
                 EscCSI "" "" "K"]) =
  plain_all [Text "ab"; EscCSI "1;31" " " "m"; EscFe "M"; Text "cd";
             EscCSI "" "" "K"].
Proof.
  apply (X18_strip_by_pieces
           [Text "ab"; EscCSI "1;31" " " "m"; EscFe "M"; Text "cd";
            EscCSI "" "" "K"]).
  reflexivity.
Defined.
